(** * Cyclomatic complexity tool (src/main.cpp): shallow embedding and properties

    The program reads a C source text, asks libclang for its cursor tree and
    writes one line [<line> <name> <complexity>] to [output.cy] per function
    declaration it discovers.

    Conventions of the embedding.
    - The libclang frontend is external to the repository: a cursor is a
      node of a finite tree that carries what the program queries of it (kind,
      spelling location, spelling, the tokens of its extent, its children), and
      [clang_visitChildren] follows the libclang contract for the three visitor
      results.
    - C++ [int] is a 32-bit two's complement integer: arithmetic on it is
      written with its wrap-around ([wrap_int]).  Signed overflow is undefined
      in C++, so the theorems about tallies carry the hypothesis that keeps
      them in the range where the arithmetic is defined.
    - Reading [expressionTokens[i]] past the end of the token array is
      undefined behaviour; it is the [None] of the [option] results below. *)

From Stdlib Require Import List String Ascii ZArith Lia Bool Arith.
From Stdlib Require Import DecimalString.
Import ListNotations.
Local Open Scope string_scope.
Local Open Scope Z_scope.

Set Implicit Arguments.

(** ** The frontend: cursors, tokens, translation units *)

(** The cursor kinds the program tests for, and the other kinds that occur in
    the trees used below. *)
Inductive CXCursorKind : Type :=
| CXCursor_StructDecl
| CXCursor_FunctionDecl
| CXCursor_VarDecl
| CXCursor_ParmDecl
| CXCursor_Namespace
| CXCursor_InvalidFile
| CXCursor_UnexposedExpr
| CXCursor_DeclRefExpr
| CXCursor_IntegerLiteral
| CXCursor_ParenExpr
| CXCursor_UnaryOperator
| CXCursor_BinaryOperator
| CXCursor_ConditionalOperator
| CXCursor_CompoundStmt
| CXCursor_CaseStmt
| CXCursor_DefaultStmt
| CXCursor_IfStmt
| CXCursor_SwitchStmt
| CXCursor_WhileStmt
| CXCursor_DoStmt
| CXCursor_ForStmt
| CXCursor_ReturnStmt
| CXCursor_DeclStmt
| CXCursor_TranslationUnit.

Definition CXCursorKind_eq_dec (a b : CXCursorKind) : {a = b} + {a <> b}.
Proof. decide equality. Defined.

Definition kind_eqb (a b : CXCursorKind) : bool :=
  if CXCursorKind_eq_dec a b then true else false.

(** A token, as far as the program looks at it: its spelling. *)
Record CXToken : Type := mkToken { clang_getTokenSpelling : string }.

(** A cursor with the answers of the frontend's queries on it.
    [cursor_tokens] is what [clang_tokenize] yields on
    [clang_getCursorExtent] of the cursor. *)
#[local] Unset Elimination Schemes.
Inductive CXCursor : Type :=
  Cursor (kind : CXCursorKind) (line column : Z) (spelling : string)
         (tokens : list CXToken) (children : list CXCursor).
#[local] Set Elimination Schemes.

Definition clang_getCursorKind (c : CXCursor) : CXCursorKind :=
  match c with Cursor k _ _ _ _ _ => k end.
Definition clang_getSpellingLine (c : CXCursor) : Z :=
  match c with Cursor _ l _ _ _ _ => l end.
Definition clang_getCursorSpelling (c : CXCursor) : string :=
  match c with Cursor _ _ _ s _ _ => s end.
Definition cursor_tokens (c : CXCursor) : list CXToken :=
  match c with Cursor _ _ _ _ t _ => t end.
Definition cursor_children (c : CXCursor) : list CXCursor :=
  match c with Cursor _ _ _ _ _ cs => cs end.

(** The null cursor: no location, no children, and a null extent, on which
    [clang_tokenize] yields zero tokens. *)
Definition clang_getNullCursor : CXCursor :=
  Cursor CXCursor_InvalidFile 0 0 "" [] [].

Record CXTranslationUnit : Type :=
  mkTU { clang_getTranslationUnitCursor : CXCursor }.

Definition clang_tokenize (TU : CXTranslationUnit) (c : CXCursor)
  : list CXToken := cursor_tokens c.

Inductive CXChildVisitResult : Type :=
| CXChildVisit_Break
| CXChildVisit_Continue
| CXChildVisit_Recurse.

(** [clang_visitChildren parent visitor data]: the visitor is called on each
    child of [parent] in order; [Break] ends the whole traversal, [Continue]
    goes on with the next sibling, [Recurse] first visits the children of the
    child just visited with the same visitor.  The client data is threaded as
    a state; a visitor whose behaviour is undefined makes the traversal
    undefined.  The boolean tells whether the traversal was broken off. *)
Section VisitChildren.
Variable S : Type.
Variable visitor : CXCursor -> CXCursor -> S -> option (CXChildVisitResult * S).

Fixpoint visit_children_of (parent : CXCursor) (data : S) {struct parent}
  : option (bool * S) :=
  (fix visit_siblings (cs : list CXCursor) (data : S) {struct cs}
     : option (bool * S) :=
     match cs with
     | [] => Some (false, data)
     | c :: rest =>
         match visitor c parent data with
         | None => None
         | Some (CXChildVisit_Break, data') => Some (true, data')
         | Some (CXChildVisit_Continue, data') => visit_siblings rest data'
         | Some (CXChildVisit_Recurse, data') =>
             match visit_children_of c data' with
             | None => None
             | Some (true, data'') => Some (true, data'')
             | Some (false, data'') => visit_siblings rest data''
             end
         end
     end) (cursor_children parent) data.
End VisitChildren.

Definition clang_visitChildren (S : Type) (parent : CXCursor)
    (visitor : CXCursor -> CXCursor -> S -> option (CXChildVisitResult * S))
    (data : S) : option S :=
  option_map snd (visit_children_of visitor parent data).

(** ** Machine integers and output formatting *)

Definition INT_MAX : Z := 2147483647.
Definition INT_MIN : Z := -2147483648.

(** The value a 32-bit two's complement [int] holds after an operation whose
    mathematical result is [z]. *)
Definition wrap_int (z : Z) : Z := (z + 2 ^ 31) mod 2 ^ 32 - 2 ^ 31.

Definition int_add (a b : Z) : Z := wrap_int (a + b).
Definition int_sub (a b : Z) : Z := wrap_int (a - b).

(** [operator<<] on an integer: its decimal digits, with a sign if negative. *)
Definition print_int (z : Z) : string := NilZero.string_of_int (Z.to_int z).

Definition endl : string := String (ascii_of_nat 10) EmptyString.

(** ** The program *)

(** [decision_kinds], line 9. *)
Definition decision_kinds : list CXCursorKind :=
  [ CXCursor_IfStmt; CXCursor_ForStmt; CXCursor_WhileStmt;
    CXCursor_DefaultStmt; CXCursor_CaseStmt;
    CXCursor_ConditionalOperator; CXCursor_BinaryOperator ].

(** [std::find(first, last, k) != last]. *)
Definition std_find_found (ks : list CXCursorKind) (k : CXCursorKind) : bool :=
  existsb (kind_eqb k) ks.

(** [getFirstChild], lines 16-30: the visitor stores the cursor it is called
    on and breaks off the traversal. *)
Definition getFirstChild (parentCursor : CXCursor) : CXCursor :=
  let childCursor := clang_getNullCursor in
  match
    clang_visitChildren parentCursor
      (fun (c parent : CXCursor) (cursor : CXCursor) =>
         Some (CXChildVisit_Break, c))
      childCursor
  with
  | Some childCursor' => childCursor'
  | None => childCursor
  end.

(** [getBinaryOperator], lines 33-52.  [None] is the read of
    [expressionTokens[numLeftHandSideTokens]] past the end of the array. *)
Definition getBinaryOperator (translationUnit : CXTranslationUnit)
    (expressionCursor : CXCursor) : option string :=
  let expressionTokens := clang_tokenize translationUnit expressionCursor in
  let leftHandSideCursor := getFirstChild expressionCursor in
  let leftHandSideTokens := clang_tokenize translationUnit leftHandSideCursor in
  let numLeftHandSideTokens := List.length leftHandSideTokens in
  match nth_error expressionTokens numLeftHandSideTokens with
  | Some tok => Some (clang_getTokenSpelling tok)
  | None => None
  end.

(** [EdgeAndNodeCounter], lines 55-60. *)
Record EdgeAndNodeCounter : Type := mkCounter {
  translationUnit : CXTranslationUnit;
  edges : Z;
  nodes : Z
}.

Definition new_counter (TU : CXTranslationUnit) : EdgeAndNodeCounter :=
  mkCounter TU 0 0.

(** [counter->edges += 2; counter->nodes += 1;] *)
Definition add_decision (counter : EdgeAndNodeCounter) : EdgeAndNodeCounter :=
  mkCounter (translationUnit counter)
            (int_add (edges counter) 2) (int_add (nodes counter) 1).

(** Lines 67-84 of [countEdgesAndNodesCallback]: what the callback does to
    the counter for the cursor it is called on, before it visits the
    children. *)
Definition classify (cursor : CXCursor) (counter : EdgeAndNodeCounter)
  : option EdgeAndNodeCounter :=
  let cursorKind := clang_getCursorKind cursor in
  if std_find_found decision_kinds cursorKind then
    if kind_eqb cursorKind CXCursor_BinaryOperator then
      match getBinaryOperator (translationUnit counter) cursor with
      | None => None
      | Some operatorSymbol =>
          if (operatorSymbol =? "&&")%string || (operatorSymbol =? "||")%string
          then Some (add_decision counter)
          else Some counter
      end
    else Some (add_decision counter)
  else Some counter.

(** [countEdgesAndNodesCallback], lines 63-88. *)
Fixpoint countEdgesAndNodesCallback (cursor parent : CXCursor)
    (clientData : EdgeAndNodeCounter) {struct cursor}
  : option (CXChildVisitResult * EdgeAndNodeCounter) :=
  match classify cursor clientData with
  | None => None
  | Some counter =>
      match clang_visitChildren cursor countEdgesAndNodesCallback counter with
      | None => None
      | Some counter' => Some (CXChildVisit_Continue, counter')
      end
  end.

(** [countEdgesAndNodes], lines 91-97. *)
Definition countEdgesAndNodes (cursor : CXCursor)
    (translationUnit : CXTranslationUnit) : option (Z * Z) :=
  let counter := new_counter translationUnit in
  match countEdgesAndNodesCallback cursor clang_getNullCursor counter with
  | None => None
  | Some (_, counter') => Some (edges counter', nodes counter')
  end.

(** [computeCyclomaticComplexity], lines 100-106. *)
Definition computeCyclomaticComplexity (cursor : CXCursor)
    (translationUnit : CXTranslationUnit) : option Z :=
  match countEdgesAndNodes cursor translationUnit with
  | None => None
  | Some counts =>
      let edges := fst counts in
      let nodes := int_add (snd counts) 1 in
      Some (int_add (int_sub edges nodes) 2)
  end.

(** ** The process: standard input, [output.cy], [std::cerr], exit status *)

(** What the process can change outside itself: the contents of [output.cy]
    and what it has written to [std::cerr]. *)
Record World : Type := mkWorld { output_cy : string; cerr : string }.

(** [std::ofstream outputFile("output.cy"); outputFile.close();] *)
Definition ofstream_truncate (w : World) : World := mkWorld "" (cerr w).

(** [std::ofstream outputFile("output.cy", std::ios_base::app); outputFile << text;] *)
Definition ofstream_append (w : World) (text : string) : World :=
  mkWorld (output_cy w ++ text) (cerr w).

Definition cerr_write (w : World) (text : string) : World :=
  mkWorld (output_cy w) (cerr w ++ text).

(** How a run of the process ends: with an exit status, or in undefined
    behaviour. *)
Inductive Outcome : Type :=
| Exited (status : Z) (w : World)
| Undefined.

(** A step that either returns to its caller or ends the process ([exit]). *)
Inductive Step (A : Type) : Type :=
| Return (a : A) (w : World)
| Exit (status : Z) (w : World).
Arguments Exit {A} status w.

Inductive CXErrorCode : Type :=
| CXError_Success
| CXError_Failure
| CXError_Crashed
| CXError_InvalidArguments
| CXError_ASTReadError.

Definition CXErrorCode_eq_dec (a b : CXErrorCode) : {a = b} + {a <> b}.
Proof. decide equality. Defined.

Record CXUnsavedFile : Type := mkUnsavedFile {
  Filename : string;
  Contents : string;
  Length : nat
}.

(** [readSourceCode], lines 109-112: the whole of standard input. *)
Definition readSourceCode (stdin : string) : string := stdin.

(** [createUnsavedFile], lines 115-122. *)
Definition createUnsavedFile (code : string) : CXUnsavedFile :=
  mkUnsavedFile "unsaved.c" code (String.length code).

(** [ChildVisitor], lines 138-141. *)
Record ChildVisitor : Type := mkChildVisitor { cxTU : CXTranslationUnit }.

(** [visitChildren_callback], lines 144-164. *)
Definition visitChildren_callback (visitor : ChildVisitor)
    (cursor parent : CXCursor) (w : World)
  : option (CXChildVisitResult * World) :=
  if kind_eqb (clang_getCursorKind cursor) CXCursor_FunctionDecl then
    let line := clang_getSpellingLine cursor in
    match computeCyclomaticComplexity cursor (cxTU visitor) with
    | None => None
    | Some complexity =>
        let functionNameStr := clang_getCursorSpelling cursor in
        Some (CXChildVisit_Continue,
              ofstream_append w
                (print_int line ++ " " ++ functionNameStr ++ " "
                 ++ print_int complexity ++ endl))
    end
  else Some (CXChildVisit_Continue, w).

(** [visitChildren], lines 167-172. *)
Definition visitChildren (root_cursor : CXCursor) (TU : CXTranslationUnit)
    (w : World) : option World :=
  let visitor := mkChildVisitor TU in
  clang_visitChildren root_cursor (visitChildren_callback visitor) w.

Section Process.
(** The frontend's parser, on the file name and the unsaved file it is
    given: an error code and the translation unit it stored. *)
Variable clang_parseTranslationUnit2 :
  string -> CXUnsavedFile -> CXErrorCode * CXTranslationUnit.

(** [parseTranslationUnit], lines 125-135. *)
Definition parseTranslationUnit (unsaved_file : CXUnsavedFile) (w : World)
  : Step CXTranslationUnit :=
  let (error, TU) := clang_parseTranslationUnit2 "unsaved.c" unsaved_file in
  if CXErrorCode_eq_dec error CXError_Success then Return TU w
  else Exit 1 (cerr_write w ("Error: Unable to parse translation unit." ++ endl)).

(** [main], lines 175-193.  Creating and disposing of the index and the
    translation unit leave no trace in the outcome. *)
Definition main (stdin : string) (w : World) : Outcome :=
  let w := ofstream_truncate w in
  let code := readSourceCode stdin in
  let unsaved_file := createUnsavedFile code in
  match parseTranslationUnit unsaved_file w with
  | Exit status w => Exited status w
  | Return TU w =>
      let root_cursor := clang_getTranslationUnitCursor TU in
      match visitChildren root_cursor TU w with
      | None => Undefined
      | Some w => Exited 0 w
      end
  end.
End Process.

(** ** Vocabulary of the properties *)

(** The cursors of a subtree in depth-first pre-order: a cursor, then the
    subtrees of its children from left to right. *)
Fixpoint preorder (c : CXCursor) : list CXCursor :=
  c :: flat_map preorder (cursor_children c).

(** [d] is [c] or one of its descendants. *)
Inductive subcursor (d : CXCursor) : CXCursor -> Prop :=
| subcursor_refl : subcursor d d
| subcursor_child : forall c ch,
    In ch (cursor_children c) -> subcursor d ch -> subcursor d c.

(** Running a fallible step over a list, threading the state. *)
Fixpoint foldM (A S : Type) (f : A -> S -> option S) (l : list A) (s : S)
  : option S :=
  match l with
  | [] => Some s
  | x :: l' =>
      match f x s with
      | None => None
      | Some s' => foldM f l' s'
      end
  end.

(** The simple decision points: every kind of [decision_kinds] but the
    binary operator. *)
Definition is_simple_decision (c : CXCursor) : bool :=
  match clang_getCursorKind c with
  | CXCursor_IfStmt | CXCursor_ForStmt | CXCursor_WhileStmt
  | CXCursor_DefaultStmt | CXCursor_CaseStmt
  | CXCursor_ConditionalOperator => true
  | _ => false
  end.

Definition is_binary_operator (c : CXCursor) : bool :=
  kind_eqb (clang_getCursorKind c) CXCursor_BinaryOperator.

(** A binary operator whose resolved symbol is [&&] or [||]. *)
Definition is_logical_operator (TU : CXTranslationUnit) (c : CXCursor) : bool :=
  is_binary_operator c &&
  match getBinaryOperator TU c with
  | Some op => (op =? "&&")%string || (op =? "||")%string
  | None => false
  end.

Definition count_simple_decisions (c : CXCursor) : Z :=
  Z.of_nat (List.length (filter is_simple_decision (preorder c))).

Definition count_logical_operators (TU : CXTranslationUnit) (c : CXCursor) : Z :=
  Z.of_nat (List.length (filter (is_logical_operator TU) (preorder c))).

(** A binary operator has a well-formed left operand when the tokens of its
    first child are fewer than its own, so that the token after them exists. *)
Definition well_formed_operand (c : CXCursor) : bool :=
  (List.length (cursor_tokens (getFirstChild c))
   <? List.length (cursor_tokens c))%nat.

Definition well_formed_operators (l : list CXCursor) : bool :=
  forallb (fun c => implb (is_binary_operator c) (well_formed_operand c)) l.

(** The cursors the classifier counts. *)
Definition is_decision (TU : CXTranslationUnit) (c : CXCursor) : bool :=
  is_simple_decision c || is_logical_operator TU c.

Definition count_decisions (TU : CXTranslationUnit) (l : list CXCursor) : Z :=
  Z.of_nat (List.length (filter (is_decision TU) l)).

Definition is_function_decl (c : CXCursor) : bool :=
  kind_eqb (clang_getCursorKind c) CXCursor_FunctionDecl.

(** The number of lines of a text: its newline characters. *)
Fixpoint line_count (s : string) : nat :=
  match s with
  | EmptyString => 0%nat
  | String a s' =>
      ((if Ascii.eqb a (ascii_of_nat 10) then 1 else 0) + line_count s')%nat
  end.

(** The function declarations among the direct children of a cursor, and
    all those of its subtree. *)
Definition direct_functions (root : CXCursor) : list CXCursor :=
  filter is_function_decl (cursor_children root).

Definition all_functions (root : CXCursor) : list CXCursor :=
  filter is_function_decl (preorder root).

(** The line of the report for a function: its line, its name and one plus
    the number of decision points of its subtree. *)
Definition record_line (TU : CXTranslationUnit) (fn : CXCursor) : string :=
  print_int (clang_getSpellingLine fn) ++ " " ++ clang_getCursorSpelling fn
  ++ " " ++ print_int (1 + count_decisions TU (preorder fn)) ++ endl.

Definition report (TU : CXTranslationUnit) (fns : list CXCursor) : string :=
  fold_right (fun fn rest => record_line TU fn ++ rest) "" fns.

(** What the driver needs of a function to report it: well-formed left
    operands, tallies within [int], and a name on one line. *)
Definition reportable (TU : CXTranslationUnit) (fn : CXCursor) : Prop :=
  well_formed_operators (preorder fn) = true
  /\ 2 * count_decisions TU (preorder fn) <= INT_MAX
  /\ line_count (clang_getCursorSpelling fn) = 0%nat.

(** The pass over the siblings inside [visit_children_of], on its own. *)
Definition visit_siblings {S : Type}
    (visitor : CXCursor -> CXCursor -> S -> option (CXChildVisitResult * S))
    (parent : CXCursor) : list CXCursor -> S -> option (bool * S) :=
  fix go (cs : list CXCursor) (data : S) {struct cs} : option (bool * S) :=
    match cs with
    | [] => Some (false, data)
    | c :: rest =>
        match visitor c parent data with
        | None => None
        | Some (CXChildVisit_Break, data') => Some (true, data')
        | Some (CXChildVisit_Continue, data') => go rest data'
        | Some (CXChildVisit_Recurse, data') =>
            match visit_children_of visitor c data' with
            | None => None
            | Some (true, data'') => Some (true, data'')
            | Some (false, data'') => go rest data''
            end
        end
    end.


(** What the driver's callback does with one child of the root. *)
Definition report_child (TU : CXTranslationUnit) (c : CXCursor) (w : World)
  : option World :=
  if is_function_decl c then
    option_map
      (fun complexity =>
         ofstream_append w
           (print_int (clang_getSpellingLine c) ++ " "
            ++ clang_getCursorSpelling c ++ " "
            ++ print_int complexity ++ endl))
      (computeCyclomaticComplexity c TU)
  else Some w.

(** The line of the report for a function and the report of a list of
    functions, with the complexity as an [int] holds it. *)
Definition int_record_line (TU : CXTranslationUnit) (fn : CXCursor) : string :=
  print_int (clang_getSpellingLine fn) ++ " " ++ clang_getCursorSpelling fn
  ++ " " ++ print_int (wrap_int (1 + count_decisions TU (preorder fn))) ++ endl.

Definition int_report (TU : CXTranslationUnit) (fns : list CXCursor) : string :=
  fold_right (fun fn rest => int_record_line TU fn ++ rest) "" fns.

(** Every function of a list has well-formed left operands throughout. *)
Definition all_well_formed (fns : list CXCursor) : bool :=
  forallb (fun fn => well_formed_operators (preorder fn)) fns.

(** ** Cursor trees of small programs *)

Module Samples.

Definition toks (l : list string) : list CXToken := map mkToken l.

Definition expr_ref (name : string) : CXCursor :=
  Cursor CXCursor_UnexposedExpr 1 1 name (toks [name])
    [Cursor CXCursor_DeclRefExpr 1 1 name (toks [name]) []].

Definition parm (name : string) : CXCursor :=
  Cursor CXCursor_ParmDecl 1 1 name (toks ["int"; name]) [].

(** [int f(int x){ return x + 1; }] *)
Definition x_plus_1 : CXCursor :=
  Cursor CXCursor_BinaryOperator 1 26 "" (toks ["x"; "+"; "1"])
    [expr_ref "x"; Cursor CXCursor_IntegerLiteral 1 30 "" (toks ["1"]) []].

Definition f_return_plus : CXCursor :=
  Cursor CXCursor_FunctionDecl 1 5 "f"
    (toks ["int"; "f"; "("; "int"; "x"; ")"; "{"; "return"; "x"; "+"; "1"; ";"; "}"])
    [parm "x";
     Cursor CXCursor_CompoundStmt 1 15 ""
       (toks ["{"; "return"; "x"; "+"; "1"; ";"; "}"])
       [Cursor CXCursor_ReturnStmt 1 17 "" (toks ["return"; "x"; "+"; "1"])
          [x_plus_1]]].

(** [void g(int a, int b){ if (a) { if (b) {} } }] *)
Definition inner_if : CXCursor :=
  Cursor CXCursor_IfStmt 1 34 "" (toks ["if"; "("; "b"; ")"; "{"; "}"])
    [expr_ref "b"; Cursor CXCursor_CompoundStmt 1 41 "" (toks ["{"; "}"]) []].

Definition outer_if : CXCursor :=
  Cursor CXCursor_IfStmt 1 25 ""
    (toks ["if"; "("; "a"; ")"; "{"; "if"; "("; "b"; ")"; "{"; "}"; "}"])
    [expr_ref "a";
     Cursor CXCursor_CompoundStmt 1 32 ""
       (toks ["{"; "if"; "("; "b"; ")"; "{"; "}"; "}"]) [inner_if]].

Definition g_nested_if : CXCursor :=
  Cursor CXCursor_FunctionDecl 1 6 "g"
    (toks ["void"; "g"; "("; "int"; "a"; ","; "int"; "b"; ")"; "{";
           "if"; "("; "a"; ")"; "{"; "if"; "("; "b"; ")"; "{"; "}"; "}"; "}"])
    [parm "a"; parm "b";
     Cursor CXCursor_CompoundStmt 1 23 ""
       (toks ["{"; "if"; "("; "a"; ")"; "{"; "if"; "("; "b"; ")"; "{"; "}"; "}"; "}"])
       [outer_if]].

(** [void h(int a, int b, int c){ if (a && b || c) {} }] *)
Definition a_and_b : CXCursor :=
  Cursor CXCursor_BinaryOperator 2 36 "" (toks ["a"; "&&"; "b"])
    [expr_ref "a"; expr_ref "b"].

Definition a_and_b_or_c : CXCursor :=
  Cursor CXCursor_BinaryOperator 2 36 "" (toks ["a"; "&&"; "b"; "||"; "c"])
    [a_and_b; expr_ref "c"].

Definition h_short_circuit : CXCursor :=
  Cursor CXCursor_FunctionDecl 2 6 "h"
    (toks ["void"; "h"; "("; "int"; "a"; ","; "int"; "b"; ","; "int"; "c"; ")";
           "{"; "if"; "("; "a"; "&&"; "b"; "||"; "c"; ")"; "{"; "}"; "}"])
    [parm "a"; parm "b"; parm "c";
     Cursor CXCursor_CompoundStmt 2 30 ""
       (toks ["{"; "if"; "("; "a"; "&&"; "b"; "||"; "c"; ")"; "{"; "}"; "}"])
       [Cursor CXCursor_IfStmt 2 32 ""
          (toks ["if"; "("; "a"; "&&"; "b"; "||"; "c"; ")"; "{"; "}"])
          [a_and_b_or_c;
           Cursor CXCursor_CompoundStmt 2 49 "" (toks ["{"; "}"]) []]]].

(** [void outer(void){ int inner(void); }]: a function declaration at
    block scope, two levels below the function that contains it. *)
Definition inner_decl : CXCursor :=
  Cursor CXCursor_FunctionDecl 1 23 "inner"
    (toks ["int"; "inner"; "("; "void"; ")"]) [].

Definition outer_with_inner : CXCursor :=
  Cursor CXCursor_FunctionDecl 1 6 "outer"
    (toks ["void"; "outer"; "("; "void"; ")"; "{";
           "int"; "inner"; "("; "void"; ")"; ";"; "}"])
    [Cursor CXCursor_CompoundStmt 1 17 ""
       (toks ["{"; "int"; "inner"; "("; "void"; ")"; ";"; "}"])
       [Cursor CXCursor_DeclStmt 1 19 ""
          (toks ["int"; "inner"; "("; "void"; ")"; ";"]) [inner_decl]]].

Definition translation_unit (decls : list CXCursor) : CXTranslationUnit :=
  mkTU (Cursor CXCursor_TranslationUnit 0 0 "unsaved.c" [] decls).

Definition nested_unit : CXTranslationUnit := translation_unit [outer_with_inner].

Definition two_functions : CXTranslationUnit :=
  translation_unit [f_return_plus; h_short_circuit].

(** A binary-operator cursor with no child and an empty extent. *)
Definition degenerate_operator : CXCursor :=
  Cursor CXCursor_BinaryOperator 1 1 "" [] [].

(** A binary-operator cursor whose first child spans as many tokens as
    the cursor itself. *)
Definition macro_operator : CXCursor :=
  Cursor CXCursor_BinaryOperator 1 1 "" (toks ["AND"; "("; "a"; ","; "b"; ")"])
    [Cursor CXCursor_ParenExpr 1 1 "" (toks ["AND"; "("; "a"; ","; "b"; ")"]) []].

Definition degenerate_function : CXCursor :=
  Cursor CXCursor_FunctionDecl 1 5 "k" (toks ["int"; "k"; "("; ")"; "{"; "}"])
    [Cursor CXCursor_CompoundStmt 1 9 "" (toks ["{"; "}"]) [degenerate_operator]].

Definition parse_to (TU : CXTranslationUnit)
  : string -> CXUnsavedFile -> CXErrorCode * CXTranslationUnit :=
  fun _ _ => (CXError_Success, TU).

Definition parse_fails
  : string -> CXUnsavedFile -> CXErrorCode * CXTranslationUnit :=
  fun _ _ => (CXError_Failure, translation_unit []).

End Samples.

(** ** Reasoning principles *)

Unset Implicit Arguments.

(** Induction on cursor trees: the property holds of a cursor as soon as it
    holds of all its children. *)
Section CursorInduction.
Variable P : CXCursor -> Prop.
Hypothesis step : forall k l col s t cs,
    Forall P cs -> P (Cursor k l col s t cs).

Fixpoint CXCursor_ind (c : CXCursor) : P c :=
  match c with
  | Cursor k l col s t cs =>
      step k l col s t cs
        ((fix all (cs : list CXCursor) : Forall P cs :=
            match cs with
            | [] => Forall_nil P
            | c' :: cs' => Forall_cons c' (CXCursor_ind c') (all cs')
            end) cs)
  end.
End CursorInduction.

Lemma foldM_app (A S : Type) (f : A -> S -> option S) (l1 l2 : list A) (s : S) :
  foldM f (l1 ++ l2) s =
  match foldM f l1 s with
  | None => None
  | Some s' => foldM f l2 s'
  end.
Proof.
  revert s; induction l1 as [|x l1 IH]; intros s; simpl; [reflexivity|].
  destruct (f x s); [apply IH | reflexivity].
Qed.

Lemma foldM_flat_map (A B S : Type) (f : B -> S -> option S) (g : A -> list B)
    (l : list A) (s : S) :
  foldM f (flat_map g l) s = foldM (fun a => foldM f (g a)) l s.
Proof.
  revert s; induction l as [|a l IH]; intros s; simpl; [reflexivity|].
  rewrite foldM_app. destruct (foldM f (g a) s); [apply IH | reflexivity].
Qed.

Lemma visit_children_of_unfold (S : Type)
    (visitor : CXCursor -> CXCursor -> S -> option (CXChildVisitResult * S))
    (parent : CXCursor) (data : S) :
  visit_children_of visitor parent data =
  visit_siblings visitor parent (cursor_children parent) data.
Proof. destruct parent; reflexivity. Qed.

(** A visitor that answers [Continue] on every child makes
    [clang_visitChildren] a left-to-right pass over the direct children. *)
Lemma clang_visitChildren_continue (S : Type) (parent : CXCursor)
    (visitor : CXCursor -> CXCursor -> S -> option (CXChildVisitResult * S))
    (g : CXCursor -> S -> option S) (data : S) :
  Forall (fun c => forall s,
              visitor c parent s =
              option_map (pair CXChildVisit_Continue) (g c s))
         (cursor_children parent) ->
  clang_visitChildren parent visitor data = foldM g (cursor_children parent) data.
Proof.
  unfold clang_visitChildren. rewrite visit_children_of_unfold.
  intros H; revert data.
  induction H as [|c rest Hc _ IH]; intros data; simpl; [reflexivity|].
  rewrite Hc. destruct (g c data) as [s'|]; simpl; [apply IH | reflexivity].
Qed.

(** The first child, or the null cursor when there is none. *)
Lemma getFirstChild_eq (c : CXCursor) :
  getFirstChild c =
  match cursor_children c with
  | [] => clang_getNullCursor
  | first :: _ => first
  end.
Proof. destruct c as [k l col sp t [|c cs]]; reflexivity. Qed.

(** The traversal of [countEdgesAndNodesCallback] is the classifier run over
    the pre-order of the subtree. *)
Lemma countEdgesAndNodesCallback_preorder (cursor parent : CXCursor)
    (counter : EdgeAndNodeCounter) :
  countEdgesAndNodesCallback cursor parent counter =
  option_map (pair CXChildVisit_Continue) (foldM classify (preorder cursor) counter).
Proof.
  revert parent counter.
  induction cursor as [k l col sp t cs IH] using CXCursor_ind.
  intros parent counter.
  change (countEdgesAndNodesCallback (Cursor k l col sp t cs) parent counter)
    with (match classify (Cursor k l col sp t cs) counter with
          | None => None
          | Some counter0 =>
              match clang_visitChildren (Cursor k l col sp t cs)
                      countEdgesAndNodesCallback counter0 with
              | None => None
              | Some counter' => Some (CXChildVisit_Continue, counter')
              end
          end).
  change (preorder (Cursor k l col sp t cs))
    with (Cursor k l col sp t cs :: flat_map preorder cs).
  simpl foldM.
  destruct (classify (Cursor k l col sp t cs) counter) as [counter0|];
    [|reflexivity].
  rewrite (clang_visitChildren_continue _ (Cursor k l col sp t cs)
             countEdgesAndNodesCallback
             (fun c => foldM classify (preorder c)) counter0).
  - rewrite foldM_flat_map. simpl cursor_children.
    destruct (foldM _ cs counter0); reflexivity.
  - simpl cursor_children. eapply Forall_impl; [|exact IH].
    intros c Hc s. apply Hc.
Qed.

Lemma subcursor_preorder (d c : CXCursor) : subcursor d c <-> In d (preorder c).
Proof.
  split.
  - induction 1 as [|c ch Hin _ IH].
    + destruct d; simpl; auto.
    + destruct c as [k l col sp t cs]. simpl in *. right.
      apply in_flat_map. exists ch. split; assumption.
  - revert d. induction c as [k l col sp t cs IH] using CXCursor_ind.
    intros d Hd. simpl in Hd. destruct Hd as [<-|Hd]; [constructor|].
    apply in_flat_map in Hd. destruct Hd as [ch [Hch Hd]].
    rewrite Forall_forall in IH.
    apply subcursor_child with (ch := ch); [exact Hch | apply IH; assumption].
Qed.

(** ** Arithmetic of [int] inside its range *)

Lemma wrap_int_small (z : Z) : INT_MIN <= z <= INT_MAX -> wrap_int z = z.
Proof.
  unfold wrap_int, INT_MIN, INT_MAX. intros H.
  change (2 ^ 31) with 2147483648. change (2 ^ 32) with 4294967296.
  rewrite Z.mod_small; lia.
Qed.

Lemma int_add_small (a b : Z) :
  INT_MIN <= a + b <= INT_MAX -> int_add a b = a + b.
Proof. apply wrap_int_small. Qed.

Lemma int_sub_small (a b : Z) :
  INT_MIN <= a - b <= INT_MAX -> int_sub a b = a - b.
Proof. apply wrap_int_small. Qed.

(** ** The operator resolver *)

Lemma getBinaryOperator_eq (TU : CXTranslationUnit) (c : CXCursor) :
  getBinaryOperator TU c =
  option_map clang_getTokenSpelling
    (nth_error (cursor_tokens c)
       (List.length (cursor_tokens (getFirstChild c)))).
Proof.
  unfold getBinaryOperator, clang_tokenize.
  destruct (nth_error _ _); reflexivity.
Qed.

Lemma getBinaryOperator_None (TU : CXTranslationUnit) (c : CXCursor) :
  getBinaryOperator TU c = None <-> well_formed_operand c = false.
Proof.
  rewrite getBinaryOperator_eq. unfold well_formed_operand.
  rewrite Nat.ltb_ge, <- nth_error_None.
  destruct (nth_error (cursor_tokens c) _); simpl; split; intros E;
    solve [reflexivity | discriminate E].
Qed.

Lemma getBinaryOperator_Some (TU : CXTranslationUnit) (c : CXCursor) :
  well_formed_operand c = true -> exists op, getBinaryOperator TU c = Some op.
Proof.
  intros H. destruct (getBinaryOperator TU c) as [op|] eqn:E; [eauto|].
  apply getBinaryOperator_None in E. rewrite E in H. discriminate H.
Qed.

(** ** The classifier *)

Lemma kind_eqb_eq (a b : CXCursorKind) : kind_eqb a b = true <-> a = b.
Proof. unfold kind_eqb. destruct (CXCursorKind_eq_dec a b); split; congruence. Qed.

(** On a cursor that is not a binary operator the classifier is total, and
    it counts exactly the simple decision points. *)
Lemma classify_other (c : CXCursor) (s : EdgeAndNodeCounter) :
  is_binary_operator c = false ->
  classify c s = Some (if is_simple_decision c then add_decision s else s).
Proof.
  unfold classify, is_binary_operator, is_simple_decision.
  destruct (clang_getCursorKind c); simpl; intros H;
    try reflexivity; discriminate.
Qed.

(** On a binary operator the classifier does what the resolved symbol says,
    and is undefined when the resolver is. *)
Lemma classify_binary (c : CXCursor) (s : EdgeAndNodeCounter) :
  is_binary_operator c = true ->
  classify c s =
  match getBinaryOperator (translationUnit s) c with
  | None => None
  | Some op =>
      if (op =? "&&")%string || (op =? "||")%string
      then Some (add_decision s) else Some s
  end.
Proof.
  unfold classify, is_binary_operator. intros H.
  apply kind_eqb_eq in H. rewrite H. reflexivity.
Qed.

(** [decision_kinds] holds the simple decision kinds and the binary
    operator, and nothing else. *)
Lemma decision_kinds_split (c : CXCursor) :
  std_find_found decision_kinds (clang_getCursorKind c) =
  is_simple_decision c || is_binary_operator c.
Proof.
  unfold is_simple_decision, is_binary_operator.
  destruct (clang_getCursorKind c); reflexivity.
Qed.

Lemma simple_not_binary (c : CXCursor) :
  is_simple_decision c = true -> is_binary_operator c = false.
Proof.
  unfold is_simple_decision, is_binary_operator.
  destruct (clang_getCursorKind c); intros H;
    solve [reflexivity | discriminate H].
Qed.

Lemma classify_well_formed (c : CXCursor) (s : EdgeAndNodeCounter) :
  implb (is_binary_operator c) (well_formed_operand c) = true ->
  classify c s =
  Some (if is_decision (translationUnit s) c then add_decision s else s).
Proof.
  intros H. unfold is_decision, is_logical_operator.
  destruct (is_binary_operator c) eqn:B.
  - simpl in H. rewrite (classify_binary c s B).
    destruct (getBinaryOperator_Some (translationUnit s) c H) as [op ->].
    assert (S0 : is_simple_decision c = false).
    { destruct (is_simple_decision c) eqn:E; [|reflexivity].
      apply simple_not_binary in E. congruence. }
    rewrite S0. simpl.
    destruct ((op =? "&&")%string || (op =? "||")%string); reflexivity.
  - rewrite (classify_other c s B). simpl. rewrite orb_false_r. reflexivity.
Qed.

Lemma count_decisions_cons (TU : CXTranslationUnit) (c : CXCursor)
    (l : list CXCursor) :
  count_decisions TU (c :: l) =
  (if is_decision TU c then 1 else 0) + count_decisions TU l.
Proof.
  unfold count_decisions. cbn [filter].
  destruct (is_decision TU c); cbn [List.length]; lia.
Qed.

Lemma count_decisions_nonneg (TU : CXTranslationUnit) (l : list CXCursor) :
  0 <= count_decisions TU l.
Proof. unfold count_decisions. lia. Qed.

Lemma count_decisions_app (TU : CXTranslationUnit) (l1 l2 : list CXCursor) :
  count_decisions TU (l1 ++ l2) = count_decisions TU l1 + count_decisions TU l2.
Proof.
  unfold count_decisions. rewrite filter_app, length_app. lia.
Qed.

(** The tally after the classifier has run over a list of cursors, as long
    as the sums stay in the range of [int]. *)
Lemma foldM_classify_counts (l : list CXCursor) (s : EdgeAndNodeCounter) :
  well_formed_operators l = true ->
  0 <= edges s -> 0 <= nodes s ->
  edges s + 2 * count_decisions (translationUnit s) l <= INT_MAX ->
  nodes s + count_decisions (translationUnit s) l <= INT_MAX ->
  foldM classify l s =
  Some (mkCounter (translationUnit s)
          (edges s + 2 * count_decisions (translationUnit s) l)
          (nodes s + count_decisions (translationUnit s) l)).
Proof.
  revert s. induction l as [|c l IH]; intros s W He Hn Be Bn.
  - simpl. unfold count_decisions. simpl. rewrite !Z.add_0_r.
    destruct s; reflexivity.
  - simpl in W. apply andb_prop in W. destruct W as [Wc Wl].
    rewrite count_decisions_cons in *.
    pose proof (count_decisions_nonneg (translationUnit s) l) as Hk.
    unfold INT_MAX in *.
    cbn [foldM]. rewrite (classify_well_formed c s Wc).
    destruct (is_decision (translationUnit s) c).
    + assert (E2 : int_add (edges s) 2 = edges s + 2)
        by (apply int_add_small; unfold INT_MIN, INT_MAX in *; lia).
      assert (E1 : int_add (nodes s) 1 = nodes s + 1)
        by (apply int_add_small; unfold INT_MIN, INT_MAX in *; lia).
      rewrite IH; unfold add_decision; cbn [translationUnit edges nodes];
        rewrite ?E2, ?E1; try assumption; try lia.
      f_equal; f_equal; lia.
    + rewrite IH; try assumption; try lia.
      f_equal; f_equal; lia.
Qed.

(** ** The tally and the complexity of a subtree *)

Lemma filter_or_length (A : Type) (p q : A -> bool) (l : list A) :
  (forall x, p x = true -> q x = false) ->
  List.length (filter (fun x => p x || q x) l) =
  (List.length (filter p l) + List.length (filter q l))%nat.
Proof.
  intros D. induction l as [|x l IH]; [reflexivity|]. cbn [filter].
  destruct (p x) eqn:Px; cbn [orb].
  - rewrite (D x Px). cbn [List.length]. rewrite IH. reflexivity.
  - destruct (q x); cbn [List.length]; rewrite IH; lia.
Qed.

Lemma count_decisions_split (TU : CXTranslationUnit) (c : CXCursor) :
  count_decisions TU (preorder c) =
  count_simple_decisions c + count_logical_operators TU c.
Proof.
  unfold count_decisions, count_simple_decisions, count_logical_operators,
    is_decision.
  rewrite filter_or_length; [lia|].
  intros x Hx. unfold is_logical_operator.
  rewrite (simple_not_binary x Hx). reflexivity.
Qed.

Lemma countEdgesAndNodes_eq (c : CXCursor) (TU : CXTranslationUnit) :
  countEdgesAndNodes c TU =
  option_map (fun counter => (edges counter, nodes counter))
    (foldM classify (preorder c) (new_counter TU)).
Proof.
  unfold countEdgesAndNodes. rewrite countEdgesAndNodesCallback_preorder.
  destruct (foldM classify (preorder c) (new_counter TU)); reflexivity.
Qed.

Lemma countEdgesAndNodes_counts (c : CXCursor) (TU : CXTranslationUnit) :
  well_formed_operators (preorder c) = true ->
  2 * count_decisions TU (preorder c) <= INT_MAX ->
  countEdgesAndNodes c TU =
  Some (2 * count_decisions TU (preorder c), count_decisions TU (preorder c)).
Proof.
  intros W B. rewrite countEdgesAndNodes_eq.
  pose proof (count_decisions_nonneg TU (preorder c)) as Hk.
  rewrite foldM_classify_counts; cbn [new_counter translationUnit edges nodes];
    try assumption; try lia.
  reflexivity.
Qed.

Lemma computeCyclomaticComplexity_counts (c : CXCursor) (TU : CXTranslationUnit) :
  well_formed_operators (preorder c) = true ->
  2 * count_decisions TU (preorder c) <= INT_MAX ->
  computeCyclomaticComplexity c TU = Some (1 + count_decisions TU (preorder c)).
Proof.
  intros W B. unfold computeCyclomaticComplexity.
  rewrite (countEdgesAndNodes_counts c TU W B). cbn [fst snd].
  pose proof (count_decisions_nonneg TU (preorder c)) as Hk.
  unfold INT_MAX in B.
  rewrite (int_add_small (count_decisions TU (preorder c)) 1)
    by (unfold INT_MIN, INT_MAX; lia).
  rewrite int_sub_small by (unfold INT_MIN, INT_MAX; lia).
  rewrite int_add_small by (unfold INT_MIN, INT_MAX; lia).
  f_equal. lia.
Qed.

(** ** Properties of the complexity computation *)

(** C1.  The complexity computed for a function is one more than the number
    of simple decision points (if, for, while, default, case, conditional
    expression) in its subtree plus the number of binary operators in its
    subtree that resolve to [&&] or [||].  The binary operators of the subtree
    have well-formed left operands and the tallies stay within [int]. *)
Theorem complexity_is_one_plus_decisions (TU : CXTranslationUnit) (fn : CXCursor) :
  well_formed_operators (preorder fn) = true ->
  2 * (count_simple_decisions fn + count_logical_operators TU fn) <= INT_MAX ->
  computeCyclomaticComplexity fn TU =
  Some (1 + count_simple_decisions fn + count_logical_operators TU fn).
Proof.
  intros W B. rewrite <- count_decisions_split in B.
  rewrite (computeCyclomaticComplexity_counts fn TU W B).
  rewrite count_decisions_split. f_equal. lia.
Qed.

Lemma complexity_is_one_plus_decisions_witness :
  computeCyclomaticComplexity Samples.h_short_circuit (Samples.translation_unit [])
  = Some (1 + 1 + 2).
Proof.
  apply (complexity_is_one_plus_decisions
           (Samples.translation_unit []) Samples.h_short_circuit).
  - reflexivity.
  - vm_compute. discriminate.
Defined.

(** C4.  When the first child of a node has fewer tokens than the node, the
    resolver returns the spelling of the node's token at the index given by
    the number of tokens of the first child; when the first child's tokens
    are a prefix of the node's, that is the token right after the prefix. *)
Theorem operator_is_token_after_left_operand
    (TU : CXTranslationUnit) (node first : CXCursor) (others : list CXCursor) :
  cursor_children node = first :: others ->
  (List.length (cursor_tokens first) < List.length (cursor_tokens node))%nat ->
  (exists tok,
      nth_error (cursor_tokens node) (List.length (cursor_tokens first)) = Some tok
      /\ getBinaryOperator TU node = Some (clang_getTokenSpelling tok))
  /\ (forall op right,
         cursor_tokens node = (cursor_tokens first ++ op :: right)%list ->
         getBinaryOperator TU node = Some (clang_getTokenSpelling op)).
Proof.
  intros Hc Hlen.
  assert (F : getFirstChild node = first)
    by (rewrite getFirstChild_eq, Hc; reflexivity).
  split.
  - destruct (nth_error (cursor_tokens node) (List.length (cursor_tokens first)))
      as [tok|] eqn:E.
    + exists tok. split; [reflexivity|].
      rewrite getBinaryOperator_eq, F, E. reflexivity.
    + apply nth_error_None in E. lia.
  - intros op right HT. rewrite getBinaryOperator_eq, F, HT.
    rewrite nth_error_app2 by lia. rewrite Nat.sub_diag. reflexivity.
Qed.

Lemma operator_is_token_after_left_operand_witness :
  (exists tok,
      nth_error (cursor_tokens Samples.a_and_b_or_c)
                (List.length (cursor_tokens Samples.a_and_b)) = Some tok
      /\ getBinaryOperator (Samples.translation_unit []) Samples.a_and_b_or_c
         = Some (clang_getTokenSpelling tok))
  /\ (forall op right,
         cursor_tokens Samples.a_and_b_or_c
         = (cursor_tokens Samples.a_and_b ++ op :: right)%list ->
         getBinaryOperator (Samples.translation_unit []) Samples.a_and_b_or_c
         = Some (clang_getTokenSpelling op)).
Proof.
  apply (operator_is_token_after_left_operand (Samples.translation_unit [])
           Samples.a_and_b_or_c Samples.a_and_b [Samples.expr_ref "c"]).
  - reflexivity.
  - simpl. lia.
Defined.

(** C3.  There is a binary-operator cursor with no first child whose
    left-operand token count is not an index into its own token sequence: the
    resolver reads out of range on it, and nothing guards the read, so the
    classifier, the complexity of a function that contains the cursor and the
    whole run are undefined with it.  In general the read is out of range
    exactly when the first child has at least as many tokens as the node; for
    a node without children that is when the node has no token at all. *)
Theorem degenerate_operand_reads_out_of_range :
  (exists (TU : CXTranslationUnit) (node fn : CXCursor),
      is_binary_operator node = true
      /\ cursor_children node = []
      /\ getFirstChild node = clang_getNullCursor
      /\ (List.length (cursor_tokens node)
          <= List.length (cursor_tokens (getFirstChild node)))%nat
      /\ getBinaryOperator TU node = None
      /\ (forall counter, classify node counter = None)
      /\ is_function_decl fn = true
      /\ subcursor node fn
      /\ computeCyclomaticComplexity fn TU = None
      /\ forall stdin w,
          main (Samples.parse_to (Samples.translation_unit [fn])) stdin w
          = Undefined)
  /\ (forall TU node,
         getBinaryOperator TU node = None <->
         (List.length (cursor_tokens node)
          <= List.length (cursor_tokens (getFirstChild node)))%nat)
  /\ (forall TU node,
         cursor_children node = [] ->
         (getBinaryOperator TU node = None <-> cursor_tokens node = [])).
Proof.
  split; [|split].
  - exists (Samples.translation_unit []), Samples.degenerate_operator,
      Samples.degenerate_function.
    repeat split; try reflexivity.
    apply subcursor_preorder. simpl. tauto.
  - intros TU node. rewrite getBinaryOperator_None. unfold well_formed_operand.
    apply Nat.ltb_ge.
  - intros TU node Hc. rewrite getBinaryOperator_None. unfold well_formed_operand.
    rewrite getFirstChild_eq, Hc. simpl.
    destruct (cursor_tokens node); simpl; split; intros H;
      solve [reflexivity | discriminate H].
Qed.

(** A first child with as many tokens as its parent also puts the read out
    of range. *)
Example operand_as_long_as_operator :
  getBinaryOperator (Samples.translation_unit []) Samples.macro_operator = None.
Proof. reflexivity. Qed.

(** C5.  Classifying a binary operator whose resolved symbol is neither [&&]
    nor [||] returns the tally it was given; the function
    [int f(int x){ return x + 1; }] has complexity 1. *)
Theorem other_operator_leaves_tally_unchanged
    (node : CXCursor) (counter : EdgeAndNodeCounter) (op : string) :
  is_binary_operator node = true ->
  getBinaryOperator (translationUnit counter) node = Some op ->
  op <> "&&" -> op <> "||" ->
  classify node counter = Some counter
  /\ computeCyclomaticComplexity Samples.f_return_plus (translationUnit counter)
     = Some 1.
Proof.
  intros B R Hand Hor. split; [|reflexivity].
  rewrite (classify_binary node counter B), R.
  apply String.eqb_neq in Hand, Hor. rewrite Hand, Hor. reflexivity.
Qed.

Lemma other_operator_leaves_tally_unchanged_witness :
  classify Samples.x_plus_1 (new_counter (Samples.translation_unit []))
  = Some (new_counter (Samples.translation_unit []))
  /\ computeCyclomaticComplexity Samples.f_return_plus (Samples.translation_unit [])
     = Some 1.
Proof.
  apply (other_operator_leaves_tally_unchanged Samples.x_plus_1
           (new_counter (Samples.translation_unit [])) "+").
  - reflexivity.
  - reflexivity.
  - discriminate.
  - discriminate.
Defined.

(** C6.  The traversal runs the classifier on the given cursor and on every
    descendant, in depth-first pre-order: a cursor first, then the subtrees of
    its children from left to right, whatever the classifier did with the
    cursor.  It answers [Continue] and never breaks off; the pre-order holds
    every descendant.  The function whose body is [if (a) { if (b) {} }] has
    complexity 3. *)
Theorem traversal_is_preorder_fold :
  (forall cursor parent counter,
      countEdgesAndNodesCallback cursor parent counter =
      option_map (pair CXChildVisit_Continue)
        (foldM classify (preorder cursor) counter))
  /\ (forall cursor,
         preorder cursor = cursor :: flat_map preorder (cursor_children cursor))
  /\ (forall cursor d, subcursor d cursor <-> In d (preorder cursor))
  /\ computeCyclomaticComplexity Samples.g_nested_if (Samples.translation_unit [])
     = Some 3.
Proof.
  split; [|split; [|split]].
  - apply countEdgesAndNodesCallback_preorder.
  - intros [k l col sp t cs]. reflexivity.
  - intros cursor d. apply subcursor_preorder.
  - reflexivity.
Qed.

(** C7.  The complexity of a function is at least 1, and it is 1 when the
    subtree of the function holds no decision point.  The binary operators of
    the subtree have well-formed left operands and the tallies stay within
    [int]. *)
Theorem complexity_at_least_one (TU : CXTranslationUnit) (fn : CXCursor) :
  well_formed_operators (preorder fn) = true ->
  2 * count_decisions TU (preorder fn) <= INT_MAX ->
  exists complexity,
    computeCyclomaticComplexity fn TU = Some complexity
    /\ 1 <= complexity
    /\ (count_simple_decisions fn = 0 -> count_logical_operators TU fn = 0 ->
        complexity = 1).
Proof.
  intros W B. exists (1 + count_decisions TU (preorder fn)).
  split; [apply computeCyclomaticComplexity_counts; assumption|].
  pose proof (count_decisions_nonneg TU (preorder fn)).
  split; [lia|]. intros Hs Hl. rewrite count_decisions_split. lia.
Qed.

Lemma complexity_at_least_one_witness :
  exists complexity,
    computeCyclomaticComplexity Samples.f_return_plus (Samples.translation_unit [])
    = Some complexity
    /\ 1 <= complexity
    /\ (count_simple_decisions Samples.f_return_plus = 0 ->
        count_logical_operators (Samples.translation_unit []) Samples.f_return_plus = 0 ->
        complexity = 1).
Proof.
  apply (complexity_at_least_one (Samples.translation_unit []) Samples.f_return_plus).
  - reflexivity.
  - vm_compute. discriminate.
Defined.

(** C10.  During the traversal of a function the tally has twice as many
    edges as nodes: after the classifier has run on any initial part of the
    pre-order the tally is defined and satisfies [edges = 2 * nodes], a
    cursor the classifier counts adds 2 to the edges and 1 to the nodes and
    any other cursor adds nothing, and the complexity is the final number of
    nodes plus 1.  The binary operators of the subtree have well-formed left
    operands and the tallies stay within [int]. *)
Theorem tally_edges_twice_nodes (TU : CXTranslationUnit) (fn : CXCursor) :
  well_formed_operators (preorder fn) = true ->
  2 * count_decisions TU (preorder fn) <= INT_MAX ->
  edges (new_counter TU) = 0 /\ nodes (new_counter TU) = 0
  /\ (forall visited c rest,
         preorder fn = (visited ++ c :: rest)%list ->
         exists before after,
           foldM classify visited (new_counter TU) = Some before
           /\ classify c before = Some after
           /\ edges before = 2 * nodes before
           /\ edges after = 2 * nodes after
           /\ ((edges after = edges before + 2 /\ nodes after = nodes before + 1)
               \/ after = before))
  /\ (exists e n,
         countEdgesAndNodes fn TU = Some (e, n)
         /\ e = 2 * n
         /\ computeCyclomaticComplexity fn TU = Some (n + 1)).
Proof.
  intros W B. split; [reflexivity|]. split; [reflexivity|]. split.
  - intros visited c rest Hp.
    assert (Wall : well_formed_operators (visited ++ c :: rest) = true)
      by (rewrite <- Hp; exact W).
    unfold well_formed_operators in Wall. rewrite forallb_app in Wall.
    apply andb_prop in Wall. destruct Wall as [Wv Wrest].
    cbn [forallb] in Wrest. apply andb_prop in Wrest. destruct Wrest as [Wc _].
    rewrite Hp, count_decisions_app, count_decisions_cons in B.
    pose proof (count_decisions_nonneg TU visited) as Hv.
    pose proof (count_decisions_nonneg TU rest) as Hr.
    assert (Hd : 0 <= (if is_decision TU c then 1 else 0))
      by (destruct (is_decision TU c); lia).
    unfold INT_MAX in B.
    eexists. eexists. split.
    { apply foldM_classify_counts;
        cbn [new_counter translationUnit edges nodes];
        unfold INT_MAX; try assumption; lia. }
    rewrite (classify_well_formed c _ Wc).
    cbn [new_counter translationUnit edges nodes].
    split; [reflexivity|]. split; [lia|].
    destruct (is_decision TU c).
    + unfold add_decision. cbn [translationUnit edges nodes].
      rewrite !int_add_small by (unfold INT_MIN, INT_MAX; lia).
      split; [lia|]. left. split; reflexivity.
    + cbn [translationUnit edges nodes]. split; [lia|]. right. reflexivity.
  - exists (2 * count_decisions TU (preorder fn)), (count_decisions TU (preorder fn)).
    split; [apply countEdgesAndNodes_counts; assumption|].
    split; [reflexivity|].
    rewrite (computeCyclomaticComplexity_counts fn TU W B). f_equal. lia.
Qed.

Lemma tally_edges_twice_nodes_witness :
  edges (new_counter (Samples.translation_unit [])) = 0
  /\ nodes (new_counter (Samples.translation_unit [])) = 0
  /\ (forall visited c rest,
         preorder Samples.h_short_circuit = (visited ++ c :: rest)%list ->
         exists before after,
           foldM classify visited (new_counter (Samples.translation_unit []))
           = Some before
           /\ classify c before = Some after
           /\ edges before = 2 * nodes before
           /\ edges after = 2 * nodes after
           /\ ((edges after = edges before + 2 /\ nodes after = nodes before + 1)
               \/ after = before))
  /\ (exists e n,
         countEdgesAndNodes Samples.h_short_circuit (Samples.translation_unit [])
         = Some (e, n)
         /\ e = 2 * n
         /\ computeCyclomaticComplexity Samples.h_short_circuit
              (Samples.translation_unit []) = Some (n + 1)).
Proof.
  apply (tally_edges_twice_nodes (Samples.translation_unit [])
           Samples.h_short_circuit).
  - reflexivity.
  - vm_compute. discriminate.
Defined.

(** ** The driver and the process *)

Lemma string_app_assoc (a b c : string) : (a ++ b) ++ c = a ++ (b ++ c).
Proof. induction a as [|x a IH]; simpl; [reflexivity | rewrite IH; reflexivity]. Qed.

Lemma string_app_nil_r (a : string) : a ++ "" = a.
Proof. induction a as [|x a IH]; simpl; [reflexivity | rewrite IH; reflexivity]. Qed.

Lemma line_count_app (a b : string) :
  line_count (a ++ b) = (line_count a + line_count b)%nat.
Proof. induction a as [|x a IH]; simpl; [reflexivity | rewrite IH; lia]. Qed.

Lemma line_count_digits (d : Decimal.uint) :
  line_count (NilEmpty.string_of_uint d) = 0%nat.
Proof. induction d; simpl; assumption || reflexivity. Qed.

Lemma line_count_print_int (z : Z) : line_count (print_int z) = 0%nat.
Proof.
  unfold print_int, NilZero.string_of_int, NilZero.string_of_uint.
  destruct (Z.to_int z) as [d|d]; destruct d;
    solve [reflexivity | apply line_count_digits
          | simpl; apply line_count_digits].
Qed.

Lemma line_count_record_line (TU : CXTranslationUnit) (fn : CXCursor) :
  line_count (clang_getCursorSpelling fn) = 0%nat ->
  line_count (record_line TU fn) = 1%nat.
Proof.
  intros H. unfold record_line.
  rewrite !line_count_app, !line_count_print_int, H. reflexivity.
Qed.

Lemma line_count_report (TU : CXTranslationUnit) (fns : list CXCursor) :
  Forall (reportable TU) fns ->
  line_count (report TU fns) = List.length fns.
Proof.
  induction 1 as [|fn fns [_ [_ Hn]] _ IH]; [reflexivity|].
  cbn [report fold_right List.length]. fold (report TU fns).
  rewrite line_count_app, (line_count_record_line TU fn Hn), IH. reflexivity.
Qed.

Lemma visitChildren_callback_eq (TU : CXTranslationUnit)
    (c parent : CXCursor) (w : World) :
  visitChildren_callback (mkChildVisitor TU) c parent w =
  option_map (pair CXChildVisit_Continue) (report_child TU c w).
Proof.
  unfold visitChildren_callback, report_child, is_function_decl. cbn [cxTU].
  destruct (kind_eqb (clang_getCursorKind c) CXCursor_FunctionDecl);
    [|reflexivity].
  destruct (computeCyclomaticComplexity c TU); reflexivity.
Qed.

(** The driver is one pass over the direct children of the root. *)
Lemma visitChildren_eq (root : CXCursor) (TU : CXTranslationUnit) (w : World) :
  visitChildren root TU w = foldM (report_child TU) (cursor_children root) w.
Proof.
  unfold visitChildren. apply clang_visitChildren_continue.
  apply Forall_forall. intros c _ s. apply visitChildren_callback_eq.
Qed.

Lemma ofstream_append_nil (w : World) : ofstream_append w "" = w.
Proof. destruct w. unfold ofstream_append. simpl. rewrite string_app_nil_r. reflexivity. Qed.

Lemma ofstream_append_append (w : World) (a b : string) :
  ofstream_append (ofstream_append w a) b = ofstream_append w (a ++ b).
Proof. unfold ofstream_append. simpl. rewrite string_app_assoc. reflexivity. Qed.

Lemma foldM_report_child (TU : CXTranslationUnit) (cs : list CXCursor) (w : World) :
  Forall (reportable TU) (filter is_function_decl cs) ->
  foldM (report_child TU) cs w =
  Some (ofstream_append w (report TU (filter is_function_decl cs))).
Proof.
  revert w. induction cs as [|c cs IH]; intros w H.
  - simpl. rewrite ofstream_append_nil. reflexivity.
  - cbn [filter foldM] in *. unfold report_child at 1.
    destruct (is_function_decl c).
    + inversion H as [|? ? [W [B _]] Hrest]; subst.
      rewrite (computeCyclomaticComplexity_counts c TU W B). cbn [option_map].
      rewrite (IH _ Hrest), ofstream_append_append. reflexivity.
    + apply IH. exact H.
Qed.

Lemma visitChildren_report (root : CXCursor) (TU : CXTranslationUnit) (w : World) :
  Forall (reportable TU) (direct_functions root) ->
  visitChildren root TU w =
  Some (ofstream_append w (report TU (direct_functions root))).
Proof. intros H. rewrite visitChildren_eq. apply foldM_report_child. exact H. Qed.

(** C2, as the program has it.  The driver reports the function declarations
    among the direct children of the root, in their order, one line each, and
    no cursor below them: after a successful parse the log is the report of
    the direct function children, and its line count is their number.  Each
    reported function has well-formed left operands, tallies within [int] and
    a name on one line. *)
Theorem driver_reports_direct_children
    (parse : string -> CXUnsavedFile -> CXErrorCode * CXTranslationUnit)
    (stdin : string) (w : World) (TU : CXTranslationUnit) :
  parse "unsaved.c" (createUnsavedFile (readSourceCode stdin))
  = (CXError_Success, TU) ->
  Forall (reportable TU) (direct_functions (clang_getTranslationUnitCursor TU)) ->
  main parse stdin w
  = Exited 0 (mkWorld (report TU (direct_functions (clang_getTranslationUnitCursor TU)))
                      (cerr w))
  /\ line_count (report TU (direct_functions (clang_getTranslationUnitCursor TU)))
     = List.length (direct_functions (clang_getTranslationUnitCursor TU)).
Proof.
  intros Hp Hf. split; [|apply line_count_report; exact Hf].
  unfold main, parseTranslationUnit. rewrite Hp.
  destruct (CXErrorCode_eq_dec CXError_Success CXError_Success) as [_|N];
    [|contradiction].
  rewrite (visitChildren_report _ TU _ Hf). reflexivity.
Qed.

Lemma driver_reports_direct_children_witness :
  main (Samples.parse_to Samples.two_functions) "" (mkWorld "stale" "")
  = Exited 0
      (mkWorld (report Samples.two_functions
                  (direct_functions
                     (clang_getTranslationUnitCursor Samples.two_functions)))
               "")
  /\ line_count (report Samples.two_functions
                   (direct_functions
                      (clang_getTranslationUnitCursor Samples.two_functions)))
     = List.length (direct_functions
                      (clang_getTranslationUnitCursor Samples.two_functions)).
Proof.
  apply (driver_reports_direct_children
           (Samples.parse_to Samples.two_functions) "" (mkWorld "stale" "")
           Samples.two_functions).
  - reflexivity.
  - repeat constructor; vm_compute; discriminate.
Defined.

(** C2, as the claim has it, fails: on the tree of
    [void outer(void){ int inner(void); }] the run writes one line, for
    [outer], while the tree holds two function declarations. *)
Lemma nested_function_is_not_reported :
  main (Samples.parse_to Samples.nested_unit) "" (mkWorld "" "")
  = Exited 0 (mkWorld ("1 outer 1" ++ endl) "")
  /\ line_count ("1 outer 1" ++ endl) = 1%nat
  /\ List.length (all_functions (clang_getTranslationUnitCursor Samples.nested_unit))
     = 2%nat
  /\ In Samples.inner_decl
        (all_functions (clang_getTranslationUnitCursor Samples.nested_unit))
  /\ line_count ("1 outer 1" ++ endl)
     <> List.length
          (all_functions (clang_getTranslationUnitCursor Samples.nested_unit)).
Proof.
  split; [reflexivity|]. split; [reflexivity|]. split; [reflexivity|].
  split; [simpl; tauto | vm_compute; discriminate].
Qed.

(** C8.  When the parser does not answer [CXError_Success], the run writes
    the error message to [std::cerr] and exits with status 1, which is not 0;
    no record is written and [output.cy], truncated before the parse, is
    empty whatever it held before. *)
Theorem parse_failure_exits_with_empty_log
    (parse : string -> CXUnsavedFile -> CXErrorCode * CXTranslationUnit)
    (stdin : string) (w : World) :
  fst (parse "unsaved.c" (createUnsavedFile (readSourceCode stdin)))
  <> CXError_Success ->
  exists status w',
    main parse stdin w = Exited status w'
    /\ status = 1 /\ status <> 0
    /\ output_cy w' = ""
    /\ cerr w' = cerr w ++ "Error: Unable to parse translation unit." ++ endl.
Proof.
  intros H. unfold main, parseTranslationUnit.
  destruct (parse "unsaved.c" (createUnsavedFile (readSourceCode stdin)))
    as [error TU]. cbn [fst] in H.
  destruct (CXErrorCode_eq_dec error CXError_Success) as [E|_];
    [contradiction|].
  eexists. eexists. split; [reflexivity|].
  repeat split. discriminate.
Qed.

Lemma parse_failure_exits_with_empty_log_witness :
  exists status w',
    main Samples.parse_fails "int f(" (mkWorld "stale" "") = Exited status w'
    /\ status = 1 /\ status <> 0
    /\ output_cy w' = ""
    /\ cerr w' = cerr (mkWorld "stale" "")
                 ++ "Error: Unable to parse translation unit." ++ endl.
Proof.
  apply (parse_failure_exits_with_empty_log Samples.parse_fails "int f("
           (mkWorld "stale" "")).
  simpl. discriminate.
Defined.

(** C9.  The outcome of a run, and with it the log it leaves, does not depend
    on what [output.cy] held before: two runs on the same input end alike,
    and a run started on the log left by a previous run on the same input
    leaves that log again.  (A run whose behaviour is undefined leaves no
    log to compare.) *)
Theorem rerun_leaves_same_log
    (parse : string -> CXUnsavedFile -> CXErrorCode * CXTranslationUnit)
    (stdin : string) :
  (forall log1 log2,
      main parse stdin (mkWorld log1 "") = main parse stdin (mkWorld log2 ""))
  /\ (forall log,
         match main parse stdin (mkWorld log "") with
         | Exited status w =>
             main parse stdin (mkWorld (output_cy w) "") = Exited status w
         | Undefined => True
         end).
Proof.
  assert (Hind : forall log1 log2,
             main parse stdin (mkWorld log1 "") = main parse stdin (mkWorld log2 ""))
    by reflexivity.
  split; [exact Hind|].
  intros log. destruct (main parse stdin (mkWorld log "")) as [status w|] eqn:E;
    [|exact I].
  rewrite <- E. apply Hind.
Qed.


(** * Further properties of the program *)

(** ** [int] arithmetic modulo 2^32 *)

Lemma wrap_int_repr (x : Z) : exists q, wrap_int x = x + q * 4294967296.
Proof.
  unfold wrap_int. change (2 ^ 31) with 2147483648.
  change (2 ^ 32) with 4294967296.
  exists (- ((x + 2147483648) / 4294967296)).
  pose proof (Z.div_mod (x + 2147483648) 4294967296). lia.
Qed.

Lemma wrap_int_shift (x q : Z) : wrap_int (x + q * 4294967296) = wrap_int x.
Proof.
  unfold wrap_int. change (2 ^ 32) with 4294967296.
  replace (x + q * 4294967296 + 2 ^ 31) with (x + 2 ^ 31 + q * 4294967296) by lia.
  rewrite Z_mod_plus_full. reflexivity.
Qed.


(** ** When the analysis of a subtree is defined *)

Lemma foldM_classify_undefined (l : list CXCursor) (s : EdgeAndNodeCounter) :
  well_formed_operators l = false -> foldM classify l s = None.
Proof.
  revert s. induction l as [|c l IH]; intros s W; [discriminate W|].
  cbn [well_formed_operators forallb] in W. cbn [foldM].
  destruct (implb (is_binary_operator c) (well_formed_operand c)) eqn:Wc.
  - rewrite (classify_well_formed c s Wc).
    destruct (is_decision (translationUnit s) c); apply IH; exact W.
  - destruct (is_binary_operator c) eqn:B; [|discriminate Wc].
    cbn [implb] in Wc. rewrite (classify_binary c s B).
    apply (getBinaryOperator_None (translationUnit s)) in Wc.
    rewrite Wc. reflexivity.
Qed.

(** The tally after the classifier has run over a list of cursors, up to
    multiples of 2^32, without a bound on the sums. *)
Lemma foldM_classify_modular (l : list CXCursor) (s : EdgeAndNodeCounter) :
  well_formed_operators l = true ->
  exists s' qe qn,
    foldM classify l s = Some s'
    /\ translationUnit s' = translationUnit s
    /\ edges s' = edges s + 2 * count_decisions (translationUnit s) l
                  + qe * 4294967296
    /\ nodes s' = nodes s + count_decisions (translationUnit s) l
                  + qn * 4294967296.
Proof.
  revert s. induction l as [|c l IH]; intros s W.
  - exists s, 0, 0. unfold count_decisions. cbn. repeat split; lia.
  - cbn [well_formed_operators forallb] in W. apply andb_prop in W.
    destruct W as [Wc Wl]. cbn [foldM].
    rewrite (classify_well_formed c s Wc), count_decisions_cons.
    destruct (is_decision (translationUnit s) c).
    + destruct (IH (add_decision s) Wl) as [s' [qe [qn [F [T [E N]]]]]].
      cbn [add_decision translationUnit edges nodes] in T, E, N.
      unfold int_add in E, N.
      destruct (wrap_int_repr (edges s + 2)) as [q2 R2].
      destruct (wrap_int_repr (nodes s + 1)) as [q1 R1].
      rewrite R2 in E. rewrite R1 in N.
      exists s', (qe + q2), (qn + q1). repeat split; try assumption; lia.
    + destruct (IH s Wl) as [s' [qe [qn [F [T [E N]]]]]].
      exists s', qe, qn. repeat split; try assumption; lia.
Qed.

Lemma computeCyclomaticComplexity_modular (c : CXCursor) (TU : CXTranslationUnit) :
  well_formed_operators (preorder c) = true ->
  computeCyclomaticComplexity c TU
  = Some (wrap_int (1 + count_decisions TU (preorder c))).
Proof.
  intros W. unfold computeCyclomaticComplexity. rewrite countEdgesAndNodes_eq.
  destruct (foldM_classify_modular (preorder c) (new_counter TU) W)
    as [s' [qe [qn [F [_ [E N]]]]]].
  rewrite F. cbn [option_map fst snd new_counter translationUnit edges nodes] in *.
  unfold int_add, int_sub.
  destruct (wrap_int_repr (nodes s' + 1)) as [qa Ra]. rewrite Ra.
  destruct (wrap_int_repr (edges s' - (nodes s' + 1 + qa * 4294967296)))
    as [qb Rb]. rewrite Rb.
  f_equal.
  replace (edges s' - (nodes s' + 1 + qa * 4294967296) + qb * 4294967296 + 2)
    with (1 + count_decisions TU (preorder c)
          + (qe - qn - qa + qb) * 4294967296) by lia.
  apply wrap_int_shift.
Qed.

Lemma computeCyclomaticComplexity_undefined (c : CXCursor) (TU : CXTranslationUnit) :
  well_formed_operators (preorder c) = false ->
  computeCyclomaticComplexity c TU = None.
Proof.
  intros W. unfold computeCyclomaticComplexity. rewrite countEdgesAndNodes_eq.
  rewrite (foldM_classify_undefined _ _ W). reflexivity.
Qed.

(** ** The operator resolver at the edges *)

(** X1.  [getFirstChild] returns the first of the children of a cursor, in
    their order, and the null cursor when there is no child; no later child
    is looked at. *)
Theorem getFirstChild_first_or_null (c : CXCursor) :
  getFirstChild c = hd clang_getNullCursor (cursor_children c)
  /\ (getFirstChild c = clang_getNullCursor \/ In (getFirstChild c) (cursor_children c)).
Proof.
  rewrite getFirstChild_eq.
  destruct (cursor_children c) as [|first rest]; cbn [hd].
  - split; [reflexivity | left; reflexivity].
  - split; [reflexivity | right; left; reflexivity].
Qed.

(** X2.  On a cursor without children the resolver returns the spelling of
    the cursor's own first token: the null cursor has no token, so the index
    is 0. *)
Theorem resolver_without_children_reads_first_token
    (TU : CXTranslationUnit) (node : CXCursor) :
  cursor_children node = [] ->
  getBinaryOperator TU node
  = option_map clang_getTokenSpelling (hd_error (cursor_tokens node)).
Proof.
  intros H. rewrite getBinaryOperator_eq, getFirstChild_eq, H.
  cbn [clang_getNullCursor cursor_tokens List.length].
  destruct (cursor_tokens node); reflexivity.
Qed.

Lemma resolver_without_children_reads_first_token_witness :
  getBinaryOperator (Samples.translation_unit [])
    (Cursor CXCursor_BinaryOperator 1 1 "" (Samples.toks ["a"; "||"; "b"]) [])
  = option_map clang_getTokenSpelling
      (hd_error (cursor_tokens
         (Cursor CXCursor_BinaryOperator 1 1 "" (Samples.toks ["a"; "||"; "b"]) []))).
Proof.
  apply (resolver_without_children_reads_first_token (Samples.translation_unit [])
           (Cursor CXCursor_BinaryOperator 1 1 "" (Samples.toks ["a"; "||"; "b"]) [])).
  reflexivity.
Defined.

(** ** The complexity of a subtree *)

(** X3.  The complexity of a subtree is undefined exactly when some binary
    operator of the subtree has a first child with at least as many tokens as
    the operator itself; cursors of other kinds never make it undefined. *)
Theorem complexity_undefined_iff_ill_formed_operator
    (TU : CXTranslationUnit) (fn : CXCursor) :
  computeCyclomaticComplexity fn TU = None
  <-> exists c, subcursor c fn
                /\ is_binary_operator c = true
                /\ (List.length (cursor_tokens c)
                    <= List.length (cursor_tokens (getFirstChild c)))%nat.
Proof.
  split.
  - intros H. destruct (well_formed_operators (preorder fn)) eqn:W.
    + rewrite (computeCyclomaticComplexity_modular fn TU W) in H. discriminate H.
    + unfold well_formed_operators in W.
      assert (E : existsb (fun c => negb (implb (is_binary_operator c)
                                            (well_formed_operand c)))
                    (preorder fn) = true).
      { clear H. induction (preorder fn) as [|c l IH]; [discriminate W|].
        cbn [forallb existsb] in *.
        destruct (implb (is_binary_operator c) (well_formed_operand c));
          cbn [negb andb orb] in *; [apply IH; exact W | reflexivity]. }
      apply existsb_exists in E. destruct E as [c [Hin Hc]].
      exists c. split; [apply subcursor_preorder; exact Hin|].
      destruct (is_binary_operator c); [|discriminate Hc].
      split; [reflexivity|]. cbn [implb] in Hc.
      unfold well_formed_operand in Hc. apply negb_true_iff in Hc.
      apply Nat.ltb_ge in Hc. exact Hc.
  - intros [c [Hsub [B Hlen]]]. apply computeCyclomaticComplexity_undefined.
    apply subcursor_preorder in Hsub.
    destruct (well_formed_operators (preorder fn)) eqn:W; [|reflexivity].
    unfold well_formed_operators in W. rewrite forallb_forall in W.
    specialize (W c Hsub). rewrite B in W. cbn [implb] in W.
    unfold well_formed_operand in W. apply Nat.ltb_lt in W. lia.
Qed.



(** X5.  A cursor whose kind is not one of [decision_kinds] (a compound
    statement, a return, a do statement, a switch statement, ...) is
    transparent: around a single child it has the complexity of the child,
    defined or not. *)
Theorem non_decision_wrapper_is_transparent
    (TU : CXTranslationUnit) (k : CXCursorKind) (l col : Z) (sp : string)
    (t : list CXToken) (child : CXCursor) :
  std_find_found decision_kinds k = false ->
  computeCyclomaticComplexity (Cursor k l col sp t [child]) TU
  = computeCyclomaticComplexity child TU.
Proof.
  intros H. unfold computeCyclomaticComplexity.
  rewrite !countEdgesAndNodes_eq.
  change (preorder (Cursor k l col sp t [child]))
    with (Cursor k l col sp t [child] :: (preorder child ++ [])%list).
  rewrite app_nil_r. cbn [foldM].
  unfold classify at 1. cbn [clang_getCursorKind]. rewrite H. reflexivity.
Qed.

Lemma non_decision_wrapper_is_transparent_witness :
  computeCyclomaticComplexity
    (Cursor CXCursor_DoStmt 1 1 "" (Samples.toks ["do"]) [Samples.outer_if])
    (Samples.translation_unit [])
  = computeCyclomaticComplexity Samples.outer_if (Samples.translation_unit []).
Proof.
  apply (non_decision_wrapper_is_transparent (Samples.translation_unit [])
           CXCursor_DoStmt 1 1 "" (Samples.toks ["do"]) Samples.outer_if).
  reflexivity.
Defined.

(** The decision points of the subtrees of a list of cursors, from the
    complexities of those subtrees. *)
Lemma children_complexities (TU : CXTranslationUnit) (cs : list CXCursor) :
  well_formed_operators (flat_map preorder cs) = true ->
  2 * count_decisions TU (flat_map preorder cs) <= INT_MAX ->
  exists complexities,
    Forall2 (fun ch cx => computeCyclomaticComplexity ch TU = Some cx)
            cs complexities
    /\ count_decisions TU (flat_map preorder cs)
       = fold_right Z.add 0 (map (fun cx => cx - 1) complexities).
Proof.
  induction cs as [|ch cs IH]; intros W B.
  - exists []. split; [constructor | reflexivity].
  - cbn [flat_map] in W, B. unfold well_formed_operators in W.
    rewrite forallb_app in W. apply andb_prop in W. destruct W as [Wch Wcs].
    rewrite count_decisions_app in B.
    pose proof (count_decisions_nonneg TU (preorder ch)) as Hch.
    pose proof (count_decisions_nonneg TU (flat_map preorder cs)) as Hcs.
    destruct IH as [cxs [F E]]; [exact Wcs | lia |].
    exists (1 + count_decisions TU (preorder ch) :: cxs). split.
    + constructor; [|exact F].
      apply computeCyclomaticComplexity_counts; [exact Wch | lia].
    + cbn [flat_map map fold_right]. rewrite count_decisions_app, E. lia.
Qed.

(** X6.  Complexity composes over the tree: the complexity of a cursor is
    one, plus one if the cursor itself is counted, plus for each child the
    complexity of the child less one; every child has a complexity of its
    own.  The binary operators of the subtree have well-formed left operands
    and the tallies stay within [int]. *)
Theorem complexity_composes_over_children (TU : CXTranslationUnit) (c : CXCursor) :
  well_formed_operators (preorder c) = true ->
  2 * count_decisions TU (preorder c) <= INT_MAX ->
  exists complexities,
    Forall2 (fun ch cx => computeCyclomaticComplexity ch TU = Some cx)
            (cursor_children c) complexities
    /\ computeCyclomaticComplexity c TU
       = Some (1 + (if is_decision TU c then 1 else 0)
               + fold_right Z.add 0 (map (fun cx => cx - 1) complexities)).
Proof.
  intros W B.
  rewrite (computeCyclomaticComplexity_counts c TU W B).
  destruct c as [k l col sp t cs].
  change (preorder (Cursor k l col sp t cs))
    with (Cursor k l col sp t cs :: flat_map preorder cs) in *.
  rewrite count_decisions_cons in *.
  cbn [well_formed_operators forallb] in W. apply andb_prop in W.
  destruct W as [_ Wcs].
  assert (Hd : 0 <= (if is_decision TU (Cursor k l col sp t cs) then 1 else 0))
    by (destruct (is_decision TU (Cursor k l col sp t cs)); lia).
  destruct (children_complexities TU cs Wcs) as [cxs [F E]]; [lia|].
  exists cxs. split; [exact F|]. cbn [cursor_children]. rewrite E. f_equal. lia.
Qed.

Lemma complexity_composes_over_children_witness :
  exists complexities,
    Forall2 (fun ch cx =>
               computeCyclomaticComplexity ch (Samples.translation_unit []) = Some cx)
            (cursor_children Samples.a_and_b_or_c) complexities
    /\ computeCyclomaticComplexity Samples.a_and_b_or_c (Samples.translation_unit [])
       = Some (1 + (if is_decision (Samples.translation_unit []) Samples.a_and_b_or_c
                    then 1 else 0)
               + fold_right Z.add 0 (map (fun cx => cx - 1) complexities)).
Proof.
  apply (complexity_composes_over_children (Samples.translation_unit [])
           Samples.a_and_b_or_c).
  - reflexivity.
  - vm_compute. discriminate.
Defined.

Lemma filter_length_implies (A : Type) (p q : A -> bool) (l : list A) :
  (forall x, p x = true -> q x = true) ->
  (List.length (filter p l) <= List.length (filter q l))%nat.
Proof.
  intros H. induction l as [|x l IH]; [reflexivity|]. cbn [filter].
  destruct (p x) eqn:Px.
  - rewrite (H x Px). cbn [List.length]. lia.
  - destruct (q x); cbn [List.length]; lia.
Qed.

(** X7.  The complexity never exceeds one plus the number of cursors of the
    subtree whose kind is one of [decision_kinds], nor one plus the number of
    cursors of the subtree.  The binary operators of the subtree have
    well-formed left operands and the tallies stay within [int]. *)
Theorem complexity_at_most_decision_kind_cursors
    (TU : CXTranslationUnit) (fn : CXCursor) :
  well_formed_operators (preorder fn) = true ->
  2 * count_decisions TU (preorder fn) <= INT_MAX ->
  exists complexity,
    computeCyclomaticComplexity fn TU = Some complexity
    /\ complexity
       <= 1 + Z.of_nat (List.length
                          (filter (fun c => std_find_found decision_kinds
                                              (clang_getCursorKind c))
                                  (preorder fn)))
    /\ complexity <= 1 + Z.of_nat (List.length (preorder fn)).
Proof.
  intros W B. exists (1 + count_decisions TU (preorder fn)).
  split; [apply computeCyclomaticComplexity_counts; assumption|].
  assert (L1 : (List.length (filter (is_decision TU) (preorder fn))
                <= List.length
                     (filter (fun c => std_find_found decision_kinds
                                         (clang_getCursorKind c))
                             (preorder fn)))%nat).
  { apply filter_length_implies. intros x Hx. rewrite decision_kinds_split.
    unfold is_decision, is_logical_operator in Hx.
    destruct (is_simple_decision x); [reflexivity|].
    destruct (is_binary_operator x); [reflexivity | discriminate Hx]. }
  pose proof (filter_length_le
                (fun c => std_find_found decision_kinds (clang_getCursorKind c))
                (preorder fn)) as L2.
  unfold count_decisions. lia.
Qed.

Lemma complexity_at_most_decision_kind_cursors_witness :
  exists complexity,
    computeCyclomaticComplexity Samples.f_return_plus (Samples.translation_unit [])
    = Some complexity
    /\ complexity
       <= 1 + Z.of_nat (List.length
                          (filter (fun c => std_find_found decision_kinds
                                              (clang_getCursorKind c))
                                  (preorder Samples.f_return_plus)))
    /\ complexity <= 1 + Z.of_nat (List.length (preorder Samples.f_return_plus)).
Proof.
  apply (complexity_at_most_decision_kind_cursors (Samples.translation_unit [])
           Samples.f_return_plus).
  - reflexivity.
  - vm_compute. discriminate.
Defined.

(** ** The driver and the whole run *)

Lemma foldM_report_child_modular (TU : CXTranslationUnit) (cs : list CXCursor)
    (w : World) :
  all_well_formed (filter is_function_decl cs) = true ->
  foldM (report_child TU) cs w
  = Some (ofstream_append w (int_report TU (filter is_function_decl cs))).
Proof.
  revert w. induction cs as [|c cs IH]; intros w H.
  - cbn. rewrite ofstream_append_nil. reflexivity.
  - cbn [filter foldM] in *. unfold report_child at 1.
    destruct (is_function_decl c).
    + cbn [all_well_formed forallb] in H. apply andb_prop in H.
      destruct H as [W Hrest].
      rewrite (computeCyclomaticComplexity_modular c TU W). cbn [option_map].
      rewrite (IH _ Hrest), ofstream_append_append. reflexivity.
    + apply IH. exact H.
Qed.

Lemma foldM_report_child_undefined (TU : CXTranslationUnit) (cs : list CXCursor)
    (w : World) :
  all_well_formed (filter is_function_decl cs) = false ->
  foldM (report_child TU) cs w = None.
Proof.
  revert w. induction cs as [|c cs IH]; intros w H; [discriminate H|].
  cbn [filter foldM] in *. unfold report_child at 1.
  destruct (is_function_decl c); [|apply IH; exact H].
  cbn [all_well_formed forallb] in H.
  destruct (well_formed_operators (preorder c)) eqn:W.
  - rewrite (computeCyclomaticComplexity_modular c TU W). cbn [option_map].
    apply IH. exact H.
  - rewrite (computeCyclomaticComplexity_undefined c TU W). reflexivity.
Qed.

Lemma foldM_report_child_appends (TU : CXTranslationUnit) (cs : list CXCursor)
    (w w' : World) :
  foldM (report_child TU) cs w = Some w' ->
  exists text, w' = ofstream_append w text.
Proof.
  revert w. induction cs as [|c cs IH]; intros w H.
  - cbn in H. injection H as <-. exists "". symmetry. apply ofstream_append_nil.
  - cbn [foldM] in H. destruct (report_child TU c w) as [w1|] eqn:R;
      [|discriminate H].
    destruct (IH w1 H) as [text2 ->].
    unfold report_child in R. destruct (is_function_decl c).
    + destruct (computeCyclomaticComplexity c TU) as [cx|]; [|discriminate R].
      cbn [option_map] in R. injection R as <-.
      rewrite ofstream_append_append. eexists. reflexivity.
    + injection R as <-. exists text2. reflexivity.
Qed.

(** X8.  After a successful parse the run ends in one of two ways.  If every
    function declaration among the direct children of the root has
    well-formed left operands throughout, it exits with status 0, nothing is
    written to [std::cerr], and [output.cy] holds one line per such function,
    in order, whatever it held before.  Otherwise the behaviour of the run is
    undefined. *)
Theorem run_after_successful_parse
    (parse : string -> CXUnsavedFile -> CXErrorCode * CXTranslationUnit)
    (stdin : string) (w : World) (TU : CXTranslationUnit) :
  parse "unsaved.c" (createUnsavedFile (readSourceCode stdin))
  = (CXError_Success, TU) ->
  main parse stdin w
  = if all_well_formed (direct_functions (clang_getTranslationUnitCursor TU))
    then Exited 0
           (mkWorld (int_report TU
                       (direct_functions (clang_getTranslationUnitCursor TU)))
                    (cerr w))
    else Undefined.
Proof.
  intros Hp. unfold main, parseTranslationUnit. rewrite Hp.
  destruct (CXErrorCode_eq_dec CXError_Success CXError_Success) as [_|N];
    [|contradiction].
  rewrite visitChildren_eq. unfold direct_functions.
  destruct (all_well_formed
              (filter is_function_decl
                 (cursor_children (clang_getTranslationUnitCursor TU)))) eqn:W.
  - rewrite (foldM_report_child_modular TU _ _ W). reflexivity.
  - rewrite (foldM_report_child_undefined TU _ _ W). reflexivity.
Qed.

Lemma run_after_successful_parse_witness :
  main (Samples.parse_to Samples.two_functions) "" (mkWorld "stale" "")
  = if all_well_formed
         (direct_functions (clang_getTranslationUnitCursor Samples.two_functions))
    then Exited 0
           (mkWorld
              (int_report Samples.two_functions
                 (direct_functions
                    (clang_getTranslationUnitCursor Samples.two_functions)))
              (cerr (mkWorld "stale" "")))
    else Undefined.
Proof.
  apply (run_after_successful_parse
           (Samples.parse_to Samples.two_functions)
           "" (mkWorld "stale" "") Samples.two_functions).
  reflexivity.
Defined.

(** X9.  The driver only appends to [output.cy]: when it returns, the file
    is what it was before followed by what the driver wrote, and [std::cerr]
    is as it was. *)
Theorem driver_only_appends
    (root : CXCursor) (TU : CXTranslationUnit) (w w' : World) :
  visitChildren root TU w = Some w' ->
  exists text, output_cy w' = output_cy w ++ text /\ cerr w' = cerr w.
Proof.
  intros H. rewrite visitChildren_eq in H.
  destruct (foldM_report_child_appends TU _ w w' H) as [text ->].
  exists text. split; reflexivity.
Qed.

Lemma driver_only_appends_witness :
  exists text,
    output_cy (mkWorld ("0 main 9" ++ endl ++ "1 f 1" ++ endl ++ "2 h 4" ++ endl) "")
    = output_cy (mkWorld ("0 main 9" ++ endl) "") ++ text
    /\ cerr (mkWorld ("0 main 9" ++ endl ++ "1 f 1" ++ endl ++ "2 h 4" ++ endl) "")
       = cerr (mkWorld ("0 main 9" ++ endl) "").
Proof.
  apply (driver_only_appends
           (clang_getTranslationUnitCursor Samples.two_functions)
           Samples.two_functions
           (mkWorld ("0 main 9" ++ endl) "")
           (mkWorld ("0 main 9" ++ endl ++ "1 f 1" ++ endl ++ "2 h 4" ++ endl) "")).
  reflexivity.
Defined.

(** X10.  The driver looks only at the function declarations among the
    children of the root: the other children (variables, structures, ...) are
    never analysed, so they change neither the log nor whether the run is
    defined. *)
Theorem driver_ignores_other_declarations
    (TU : CXTranslationUnit) (k : CXCursorKind) (l col : Z) (sp : string)
    (t : list CXToken) (cs : list CXCursor) (w : World) :
  visitChildren (Cursor k l col sp t cs) TU w
  = visitChildren (Cursor k l col sp t (filter is_function_decl cs)) TU w.
Proof.
  rewrite !visitChildren_eq. cbn [cursor_children]. revert w.
  induction cs as [|c cs IH]; intros w; [reflexivity|].
  cbn [filter]. destruct (is_function_decl c) eqn:F.
  - cbn [foldM]. destruct (report_child TU c w); [apply IH | reflexivity].
  - cbn [foldM]. unfold report_child at 1. rewrite F. apply IH.
Qed.

(** X11.  The driver handles the children of the root one after the other:
    on a root whose children are two lists put together it does what it does
    on the first list and then, from the log that leaves, what it does on the
    second; it is undefined as soon as either part is. *)
Theorem driver_composes_over_declarations
    (TU : CXTranslationUnit) (k : CXCursorKind) (l col : Z) (sp : string)
    (t : list CXToken) (cs1 cs2 : list CXCursor) (w : World) :
  visitChildren (Cursor k l col sp t (cs1 ++ cs2)) TU w
  = match visitChildren (Cursor k l col sp t cs1) TU w with
    | Some w1 => visitChildren (Cursor k l col sp t cs2) TU w1
    | None => None
    end.
Proof.
  rewrite !visitChildren_eq. cbn [cursor_children]. rewrite foldM_app.
  destruct (foldM (report_child TU) cs1 w) as [w1|]; [|reflexivity].
  rewrite visitChildren_eq. reflexivity.
Qed.
